(** * The CDN construct of the static website (cdn.ts)

    A shallow embedding of [CdnConstruct], the construct that places a
    CloudFront distribution in front of the website bucket
    (src/ops/src/lib/constructs/staticWebsite/cdn.ts), and the properties of
    the resource graph its constructor registers.

    The constructor is imperative: every [new R(this, id, config)] adds a
    child to the construct being built, and a property read on [undefined]
    throws.  It is modelled in a small state-and-exception monad whose state
    is the list of children registered so far; the state survives an
    exception, so that what was registered before a throw stays visible. *)

From Stdlib Require Import String List Bool Arith Lia.
From ExtLib Require Import Structures.Monad.
Import ListNotations.
Import MonadNotation.

Open Scope string_scope.
Open Scope monad_scope.

(** ** Values handed over by the provider bindings *)

(** Modelled from the spec: the generated bindings of imports/providers/aws
    are not part of the sources.  An attribute of a borrowed resource is
    either a value written in the program, a token that stands for a value
    only the provider knows (unresolved at build time), or absent.  The
    first two are strings of the program (a token is a string that encodes a
    reference) and are what the getters of a bucket or certificate handle
    yield; [Undefined] is the one value that is not a string. *)
Inductive Attribute : Type :=
| Literal (s : string)
| Unresolved (token : string)
| Undefined.

(** Modelled from the spec: the bucket handle exposes an identifier, an ARN
    and a regional domain name (the S3Bucket class is not part of the
    sources).  The constructor reads exactly these three members. *)
Module S3Bucket.
Record t : Type := Build
  { arn : Attribute;
    id : Attribute;
    bucketRegionalDomainName : string }.
End S3Bucket.

(** Modelled from the spec: the certificate handle exposes an identifier
    (the AcmCertificate class is not part of the sources). *)
Module AcmCertificate.
Record t : Type := Build { id : Attribute }.
End AcmCertificate.

(** ** Configuration records of the five resources *)

Module CloudfrontOriginAccessIdentityConfig.
Record t : Type := Build { comment : string }.
End CloudfrontOriginAccessIdentityConfig.

Module Principal.
Record t : Type := Build
  { type : string;
    identifiers : list string }.
End Principal.

Module Statement.
Record t : Type := Build
  { effect : string;
    actions : list string;
    resources : list string;
    principals : list Principal.t }.
End Statement.

Module DataAwsIamPolicyDocumentConfig.
Record t : Type := Build
  { version : string;
    statement : list Statement.t }.
End DataAwsIamPolicyDocumentConfig.

Module S3BucketPolicyConfig.
Record t : Type := Build
  { bucket : string;
    policy : string }.
End S3BucketPolicyConfig.

Module S3BucketPublicAccessBlockConfig.
Record t : Type := Build
  { bucket : string;
    blockPublicAcls : bool;
    blockPublicPolicy : bool;
    ignorePublicAcls : bool;
    restrictPublicBuckets : bool }.
End S3BucketPublicAccessBlockConfig.

Module S3OriginConfig.
Record t : Type := Build { originAccessIdentity : string }.
End S3OriginConfig.

Module Origin.
Record t : Type := Build
  { domainName : string;
    originId : string;
    s3OriginConfig : list S3OriginConfig.t }.
End Origin.

Module CustomErrorResponse.
Record t : Type := Build
  { errorCode : nat;
    responseCode : nat;
    responsePagePath : string }.
End CustomErrorResponse.

Module Cookies.
Record t : Type := Build { forward : string }.
End Cookies.

Module ForwardedValues.
Record t : Type := Build
  { queryString : bool;
    cookies : list Cookies.t }.
End ForwardedValues.

Module DefaultCacheBehavior.
Record t : Type := Build
  { targetOriginId : string;
    allowedMethods : list string;
    cachedMethods : list string;
    viewerProtocolPolicy : string;
    forwardedValues : list ForwardedValues.t }.
End DefaultCacheBehavior.

Module GeoRestriction.
Record t : Type := Build { restrictionType : string }.
End GeoRestriction.

Module Restrictions.
Record t : Type := Build { geoRestriction : list GeoRestriction.t }.
End Restrictions.

(** The viewer certificate is an object literal of one of two shapes; a
    member left out of the literal is [None]. *)
Module ViewerCertificate.
Record t : Type := Build
  { acmCertificateArn : option string;
    sslSupportMethod : option string;
    cloudfrontDefaultCertificate : option bool }.
End ViewerCertificate.

(** [aliases] is [None] where the source passes [undefined]. *)
Module CloudfrontDistributionConfig.
Record t : Type := Build
  { enabled : bool;
    defaultRootObject : string;
    aliases : option (list string);
    origin : list Origin.t;
    customErrorResponse : list CustomErrorResponse.t;
    defaultCacheBehavior : list DefaultCacheBehavior.t;
    restrictions : list Restrictions.t;
    viewerCertificate : list ViewerCertificate.t;
    dependsOn : list S3Bucket.t }.
End CloudfrontDistributionConfig.

(** ** Constructs *)

(** A resource object: the id it was registered under and its configuration. *)
Record Resource (C : Type) : Type := MkResource
  { node_id : string;
    config : C }.

Arguments MkResource {C} _ _.
Arguments node_id {C} _.
Arguments config {C} _.

Definition CloudfrontOriginAccessIdentity : Type :=
  Resource CloudfrontOriginAccessIdentityConfig.t.
Definition DataAwsIamPolicyDocument : Type :=
  Resource DataAwsIamPolicyDocumentConfig.t.
Definition S3BucketPolicy : Type :=
  Resource S3BucketPolicyConfig.t.
Definition S3BucketPublicAccessBlock : Type :=
  Resource S3BucketPublicAccessBlockConfig.t.
Definition CloudfrontDistribution : Type :=
  Resource CloudfrontDistributionConfig.t.

(** A child of the construct under construction. *)
Inductive Child : Type :=
| ChildIdentity (r : CloudfrontOriginAccessIdentity)
| ChildPolicyDocument (r : DataAwsIamPolicyDocument)
| ChildBucketPolicy (r : S3BucketPolicy)
| ChildPublicAccessBlock (r : S3BucketPublicAccessBlock)
| ChildDistribution (r : CloudfrontDistribution).

(** ** The construction monad *)

Inductive Exception : Type :=
| TypeError (message : string).

(** A computation takes the children registered so far and returns the
    children registered afterwards together with a value or the exception
    thrown. *)
Definition Synth (A : Type) : Type :=
  list Child -> list Child * (Exception + A).

Definition synth_ret {A : Type} (a : A) : Synth A :=
  fun children => (children, inr a).

Definition synth_bind {A B : Type} (m : Synth A) (k : A -> Synth B) : Synth B :=
  fun children =>
    match m children with
    | (children', inl e) => (children', inl e)
    | (children', inr a) => k a children'
    end.

#[global] Instance Monad_Synth : Monad Synth :=
  {| ret := @synth_ret; bind := @synth_bind |}.

Definition throw {A : Type} (e : Exception) : Synth A :=
  fun children => (children, inl e).

(** [new R(this, id, config)]: the new object is appended to the children
    of [this] and returned. *)
Definition new_resource {C : Type} (inject : Resource C -> Child)
    (id : string) (cfg : C) : Synth (Resource C) :=
  fun children =>
    let r := {| node_id := id; config := cfg |} in
    ((children ++ [inject r])%list, inr r).

(** [o.member] on a value that may be [undefined]. *)
Definition read_member {A B : Type} (object : option A) (name : string)
    (member : A -> B) : Synth B :=
  match object with
  | Some o => ret (member o)
  | None =>
      throw (TypeError ("Cannot read property '" ++ name ++ "' of undefined"))
  end.

(** ** The properties of the construct *)

(** The run-time value of [props].  TypeScript types are erased, so the
    member [acmCertificate] may hold [undefined] ([None]) although the
    interface declares it; [conforms] below is the interface's view.  The
    other members are taken as the interface declares them: a [props]
    without a bucket, on which the first read of [websiteS3Bucket.arn] would
    throw, is not a value of this record. *)
Record ICdnConstructProps : Type := MkProps
  { acmCertificate : option AcmCertificate.t;
    domainNames : list string;
    enableHttps : bool;
    hasBuildCommand : bool;
    resourceNamesPrefix : string;
    websiteS3Bucket : S3Bucket.t }.

(** The members the interface declares, each with whether it carries the
    optional modifier [?].  None does. *)
Definition ICdnConstructProps_members : list (string * bool) :=
  [ ("acmCertificate", false);
    ("domainNames", false);
    ("enableHttps", false);
    ("hasBuildCommand", false);
    ("resourceNamesPrefix", false);
    ("websiteS3Bucket", false) ].

Definition supplied (props : ICdnConstructProps) (name : string) : bool :=
  if String.eqb name "acmCertificate"
  then match acmCertificate props with Some _ => true | None => false end
  else true.

(** [props] is a value of the interface type: every member that is not
    optional is there. *)
Definition conforms (props : ICdnConstructProps) : bool :=
  forallb (fun m => snd m || supplied props (fst m)) ICdnConstructProps_members.

(** The object the class builds. *)
Record CdnConstruct : Type := MkCdnConstruct
  { construct_id : string;
    cloudfrontDistribution : CloudfrontDistribution }.

(** ** The constructor *)

Section Constructor.

(** cdktf's [Token.asString(value: any): string], which is not part of the
    sources: it turns an attribute into the string written into a
    configuration (a token is encoded, nothing is validated).  On a string,
    literal or token, the result is determined by the argument, which is
    what a function says.  On a value that is not a string the library
    registers a new token at every call, so two calls on [Undefined] do not
    return the same string; what is stated about two reads of one attribute
    is therefore stated for attributes other than [Undefined]. *)
Variable Token_asString : Attribute -> string.

(** The computed attributes the bindings offer on the resources created
    here (getters of imports/providers/aws): each is a string that refers
    to the resource it is read from.  The reference is built from the place
    of the resource in the construct tree, so these getters are those of
    one enclosing construct: runs are compared under the same [id]. *)
Variable iamArn : CloudfrontOriginAccessIdentity -> string.
Variable cloudfrontAccessIdentityPath : CloudfrontOriginAccessIdentity -> string.
Variable json : DataAwsIamPolicyDocument -> string.

(** [constructor(scope, id, props)], from the line after [super(scope, id)].
    The call of [super] belongs to the constructs library: it registers the
    new construct with its parent, refusing an [id] the parent cannot take
    (the empty one, or one already used there), and leaves the children of
    the new construct, the state here, empty.  [construct_id] records the
    [id] the class was called with.  The members of the distribution's
    configuration literal are evaluated in the order written; the viewer
    certificate is the only one whose evaluation can throw, so it is bound
    first. *)
Definition CdnConstruct_constructor (id : string) (props : ICdnConstructProps)
  : Synth CdnConstruct :=
  let websiteOriginID := resourceNamesPrefix props in
  cloudfrontOriginAccessIdentity <-
    new_resource ChildIdentity "cloudfront_OAI"
      {| CloudfrontOriginAccessIdentityConfig.comment := "bifrost_summary" |} ;;
  buildRolePolicyDocument <-
    new_resource ChildPolicyDocument "cloudfront_OAI_role_policy_document"
      {| DataAwsIamPolicyDocumentConfig.version := "2012-10-17";
         DataAwsIamPolicyDocumentConfig.statement :=
           [ {| Statement.effect := "Allow";
                Statement.actions :=
                  [ "s3:GetObject";
                    "s3:GetObjectVersion";
                    "s3:ListBucket";
                    "s3:GetBucketAcl";
                    "s3:GetBucketLocation" ];
                Statement.resources :=
                  [ Token_asString (S3Bucket.arn (websiteS3Bucket props));
                    Token_asString (S3Bucket.arn (websiteS3Bucket props)) ++ "/*" ];
                Statement.principals :=
                  [ {| Principal.type := "AWS";
                       Principal.identifiers :=
                         [ iamArn cloudfrontOriginAccessIdentity ] |} ] |} ] |} ;;
  new_resource ChildBucketPolicy "cloudfront_s3_bucket_policy"
    {| S3BucketPolicyConfig.bucket :=
         Token_asString (S3Bucket.id (websiteS3Bucket props));
       S3BucketPolicyConfig.policy := json buildRolePolicyDocument |} ;;
  new_resource ChildPublicAccessBlock "cloudfront_s3_bucket_public_access_block"
    {| S3BucketPublicAccessBlockConfig.bucket :=
         Token_asString (S3Bucket.id (websiteS3Bucket props));
       S3BucketPublicAccessBlockConfig.blockPublicAcls := true;
       S3BucketPublicAccessBlockConfig.blockPublicPolicy := true;
       S3BucketPublicAccessBlockConfig.ignorePublicAcls := true;
       S3BucketPublicAccessBlockConfig.restrictPublicBuckets := false |} ;;
  viewerCertificate <-
    (if enableHttps props
     then
       certificateId <- read_member (acmCertificate props) "id" AcmCertificate.id ;;
       ret {| ViewerCertificate.acmCertificateArn :=
                Some (Token_asString certificateId);
              ViewerCertificate.sslSupportMethod := Some "sni-only";
              ViewerCertificate.cloudfrontDefaultCertificate := None |}
     else
       ret {| ViewerCertificate.acmCertificateArn := None;
              ViewerCertificate.sslSupportMethod := None;
              ViewerCertificate.cloudfrontDefaultCertificate := Some true |}) ;;
  cloudfrontDistribution <-
    new_resource ChildDistribution "cloudfront_distribution"
      {| CloudfrontDistributionConfig.enabled := true;
         CloudfrontDistributionConfig.defaultRootObject := "index.html";
         CloudfrontDistributionConfig.aliases :=
           if enableHttps props then Some (domainNames props) else None;
         CloudfrontDistributionConfig.origin :=
           [ {| Origin.domainName :=
                  S3Bucket.bucketRegionalDomainName (websiteS3Bucket props);
                Origin.originId := websiteOriginID;
                Origin.s3OriginConfig :=
                  [ {| S3OriginConfig.originAccessIdentity :=
                         cloudfrontAccessIdentityPath
                           cloudfrontOriginAccessIdentity |} ] |} ];
         CloudfrontDistributionConfig.customErrorResponse :=
           [ {| CustomErrorResponse.errorCode := 403;
                CustomErrorResponse.responseCode :=
                  if hasBuildCommand props then 200 else 403;
                CustomErrorResponse.responsePagePath :=
                  if hasBuildCommand props then "/index.html" else "/error.html" |} ];
         CloudfrontDistributionConfig.defaultCacheBehavior :=
           [ {| DefaultCacheBehavior.targetOriginId := websiteOriginID;
                DefaultCacheBehavior.allowedMethods :=
                  [ "DELETE"; "GET"; "HEAD"; "OPTIONS"; "PATCH"; "POST"; "PUT" ];
                DefaultCacheBehavior.cachedMethods := [ "GET"; "HEAD" ];
                DefaultCacheBehavior.viewerProtocolPolicy := "redirect-to-https";
                DefaultCacheBehavior.forwardedValues :=
                  [ {| ForwardedValues.queryString := false;
                       ForwardedValues.cookies :=
                         [ {| Cookies.forward := "none" |} ] |} ] |} ];
         CloudfrontDistributionConfig.restrictions :=
           [ {| Restrictions.geoRestriction :=
                  [ {| GeoRestriction.restrictionType := "none" |} ] |} ];
         CloudfrontDistributionConfig.viewerCertificate := [ viewerCertificate ];
         CloudfrontDistributionConfig.dependsOn := [ websiteS3Bucket props ] |} ;;
  ret {| construct_id := id; cloudfrontDistribution := cloudfrontDistribution |}.

(** The children of a freshly built construct. *)
Definition emitted (id : string) (props : ICdnConstructProps) : list Child :=
  fst (CdnConstruct_constructor id props []).

(** What the constructor returned, or the exception it threw. *)
Definition outcome (id : string) (props : ICdnConstructProps)
  : Exception + CdnConstruct :=
  snd (CdnConstruct_constructor id props []).

End Constructor.

(** ** Looking into a list of children *)

Definition identities (children : list Child) : list CloudfrontOriginAccessIdentity :=
  flat_map (fun c => match c with ChildIdentity r => [r] | _ => [] end) children.

Definition policyDocuments (children : list Child) : list DataAwsIamPolicyDocument :=
  flat_map (fun c => match c with ChildPolicyDocument r => [r] | _ => [] end) children.

Definition bucketPolicies (children : list Child) : list S3BucketPolicy :=
  flat_map (fun c => match c with ChildBucketPolicy r => [r] | _ => [] end) children.

Definition publicAccessBlocks (children : list Child) : list S3BucketPublicAccessBlock :=
  flat_map (fun c => match c with ChildPublicAccessBlock r => [r] | _ => [] end) children.

Definition distributions (children : list Child) : list CloudfrontDistribution :=
  flat_map (fun c => match c with ChildDistribution r => [r] | _ => [] end) children.

(** ** Concrete inputs *)

(** One rendering of attributes, for running the constructor on examples. *)
Definition render (a : Attribute) : string :=
  match a with
  | Literal s => s
  | Unresolved token => "${" ++ token ++ "}"
  | Undefined => "undefined"
  end.

Definition render_iamArn (r : CloudfrontOriginAccessIdentity) : string :=
  "${aws_cloudfront_origin_access_identity." ++ node_id r ++ ".iam_arn}".

Definition render_accessIdentityPath (r : CloudfrontOriginAccessIdentity) : string :=
  "${aws_cloudfront_origin_access_identity." ++ node_id r
    ++ ".cloudfront_access_identity_path}".

Definition render_json (r : DataAwsIamPolicyDocument) : string :=
  "${data.aws_iam_policy_document." ++ node_id r ++ ".json}".

Definition run (id : string) (props : ICdnConstructProps)
  : list Child * (Exception + CdnConstruct) :=
  CdnConstruct_constructor render render_iamArn render_accessIdentityPath
    render_json id props [].

Definition bucket_abc : S3Bucket.t :=
  {| S3Bucket.arn := Literal "arn:aws:s3:::bucket-abc";
     S3Bucket.id := Literal "bucket-abc";
     S3Bucket.bucketRegionalDomainName := "bucket-abc.s3.eu-west-1.amazonaws.com" |}.

Definition bucket_xyz : S3Bucket.t :=
  {| S3Bucket.arn := Unresolved "aws_s3_bucket.website.arn";
     S3Bucket.id := Unresolved "aws_s3_bucket.website.id";
     S3Bucket.bucketRegionalDomainName := "bucket-xyz.s3.eu-west-1.amazonaws.com" |}.

Definition cert_123 : AcmCertificate.t :=
  {| AcmCertificate.id := Literal "cert-123" |}.

(** The two scenarios of the specification. *)
Definition site1 : ICdnConstructProps :=
  {| acmCertificate := Some cert_123;
     domainNames := ["example.com"];
     enableHttps := true;
     hasBuildCommand := true;
     resourceNamesPrefix := "site1";
     websiteS3Bucket := bucket_abc |}.

Definition site2 : ICdnConstructProps :=
  {| acmCertificate := None;
     domainNames := [];
     enableHttps := false;
     hasBuildCommand := false;
     resourceNamesPrefix := "site2";
     websiteS3Bucket := bucket_xyz |}.

(** HTTPS switched on for a site that has a certificate but names no domain. *)
Definition site3 : ICdnConstructProps :=
  {| acmCertificate := Some cert_123;
     domainNames := [];
     enableHttps := true;
     hasBuildCommand := false;
     resourceNamesPrefix := "site3";
     websiteS3Bucket := bucket_abc |}.

(** [site1] with HTTPS switched off again. *)
Definition site1_http : ICdnConstructProps :=
  {| acmCertificate := Some cert_123;
     domainNames := ["example.com"];
     enableHttps := false;
     hasBuildCommand := true;
     resourceNamesPrefix := "site1";
     websiteS3Bucket := bucket_abc |}.

(** ** Record updates used to compare inputs and outputs *)

(** [props] with another value in its certificate member. *)
Definition with_certificate (c : option AcmCertificate.t)
    (props : ICdnConstructProps) : ICdnConstructProps :=
  {| acmCertificate := c;
     domainNames := domainNames props;
     enableHttps := enableHttps props;
     hasBuildCommand := hasBuildCommand props;
     resourceNamesPrefix := resourceNamesPrefix props;
     websiteS3Bucket := websiteS3Bucket props |}.

(** A distribution configuration with its alias list and viewer-certificate
    block replaced and every other member kept. *)
Definition with_tls (a : option (list string)) (v : list ViewerCertificate.t)
    (d : CloudfrontDistributionConfig.t) : CloudfrontDistributionConfig.t :=
  {| CloudfrontDistributionConfig.enabled := CloudfrontDistributionConfig.enabled d;
     CloudfrontDistributionConfig.defaultRootObject :=
       CloudfrontDistributionConfig.defaultRootObject d;
     CloudfrontDistributionConfig.aliases := a;
     CloudfrontDistributionConfig.origin := CloudfrontDistributionConfig.origin d;
     CloudfrontDistributionConfig.customErrorResponse :=
       CloudfrontDistributionConfig.customErrorResponse d;
     CloudfrontDistributionConfig.defaultCacheBehavior :=
       CloudfrontDistributionConfig.defaultCacheBehavior d;
     CloudfrontDistributionConfig.restrictions :=
       CloudfrontDistributionConfig.restrictions d;
     CloudfrontDistributionConfig.viewerCertificate := v;
     CloudfrontDistributionConfig.dependsOn :=
       CloudfrontDistributionConfig.dependsOn d |}.

(** The statement "construction is rejected before anything is registered",
    for the concrete rendering. *)
Definition rejected_before_emitting (id : string) (props : ICdnConstructProps) : Prop :=
  exists e, run id props = ([], inl e).

(** ** Further views and updates *)

(** The id a child was registered under. *)
Definition child_id (c : Child) : string :=
  match c with
  | ChildIdentity r => node_id r
  | ChildPolicyDocument r => node_id r
  | ChildBucketPolicy r => node_id r
  | ChildPublicAccessBlock r => node_id r
  | ChildDistribution r => node_id r
  end.

Definition isDistribution (c : Child) : bool :=
  match c with
  | ChildDistribution _ => true
  | _ => false
  end.

(** The children on the bucket's side of the graph: all but distributions. *)
Definition bucketSide (children : list Child) : list Child :=
  filter (fun c => negb (isDistribution c)) children.

(** [props] with another list of domain names. *)
Definition with_domainNames (names : list string)
    (props : ICdnConstructProps) : ICdnConstructProps :=
  {| acmCertificate := acmCertificate props;
     domainNames := names;
     enableHttps := enableHttps props;
     hasBuildCommand := hasBuildCommand props;
     resourceNamesPrefix := resourceNamesPrefix props;
     websiteS3Bucket := websiteS3Bucket props |}.

(** [props] with another value of the build-command flag. *)
Definition with_hasBuildCommand (b : bool)
    (props : ICdnConstructProps) : ICdnConstructProps :=
  {| acmCertificate := acmCertificate props;
     domainNames := domainNames props;
     enableHttps := enableHttps props;
     hasBuildCommand := b;
     resourceNamesPrefix := resourceNamesPrefix props;
     websiteS3Bucket := websiteS3Bucket props |}.

(** A distribution configuration with its custom error responses replaced
    and every other member kept. *)
Definition with_customErrorResponse (r : list CustomErrorResponse.t)
    (d : CloudfrontDistributionConfig.t) : CloudfrontDistributionConfig.t :=
  {| CloudfrontDistributionConfig.enabled := CloudfrontDistributionConfig.enabled d;
     CloudfrontDistributionConfig.defaultRootObject :=
       CloudfrontDistributionConfig.defaultRootObject d;
     CloudfrontDistributionConfig.aliases := CloudfrontDistributionConfig.aliases d;
     CloudfrontDistributionConfig.origin := CloudfrontDistributionConfig.origin d;
     CloudfrontDistributionConfig.customErrorResponse := r;
     CloudfrontDistributionConfig.defaultCacheBehavior :=
       CloudfrontDistributionConfig.defaultCacheBehavior d;
     CloudfrontDistributionConfig.restrictions :=
       CloudfrontDistributionConfig.restrictions d;
     CloudfrontDistributionConfig.viewerCertificate :=
       CloudfrontDistributionConfig.viewerCertificate d;
     CloudfrontDistributionConfig.dependsOn :=
       CloudfrontDistributionConfig.dependsOn d |}.

(** HTTPS on with the certificate member left [undefined]. *)
Definition site4 : ICdnConstructProps :=
  {| acmCertificate := None;
     domainNames := ["example.com"];
     enableHttps := true;
     hasBuildCommand := false;
     resourceNamesPrefix := "site4";
     websiteS3Bucket := bucket_xyz |}.

(** * Properties *)

(** ** The interface *)

Lemma conforms_certificate (props : ICdnConstructProps) :
  conforms props = true <-> acmCertificate props <> None.
Proof.
  unfold conforms, supplied; simpl.
  destruct (acmCertificate props) as [c|]; simpl; split; intro H;
    solve [ reflexivity | discriminate | congruence ].
Qed.

Lemma with_certificate_same (props : ICdnConstructProps) :
  with_certificate (acmCertificate props) props = props.
Proof. destruct props; reflexivity. Qed.

(** ** Running the constructor *)

Section Properties.

Variable Token_asString : Attribute -> string.
Variable iamArn : CloudfrontOriginAccessIdentity -> string.
Variable cloudfrontAccessIdentityPath : CloudfrontOriginAccessIdentity -> string.
Variable json : DataAwsIamPolicyDocument -> string.

Local Abbreviation build :=
  (CdnConstruct_constructor Token_asString iamArn cloudfrontAccessIdentityPath json).
Local Abbreviation children_of :=
  (emitted Token_asString iamArn cloudfrontAccessIdentityPath json).
Local Abbreviation result_of :=
  (outcome Token_asString iamArn cloudfrontAccessIdentityPath json).

(** Splits an input into the cases the constructor distinguishes and runs it. *)
Ltac run_constructor props :=
  unfold emitted, outcome, CdnConstruct_constructor;
  destruct props as [cert names https spa prefix bucket];
  simpl in *; subst;
  try destruct cert; try destruct https; try destruct spa;
  try discriminate; try congruence; simpl.

(** The first four resources do not depend on any flag: whatever the input,
    they are registered, in this order, before the distribution is looked at. *)
Lemma constructor_prefix (id : string) (props : ICdnConstructProps) :
  exists oai doc pol pab rest,
    children_of id props =
      ChildIdentity oai :: ChildPolicyDocument doc :: ChildBucketPolicy pol
        :: ChildPublicAccessBlock pab :: rest
    /\ (forall c, In c rest -> exists d, c = ChildDistribution d).
Proof.
  run_constructor props;
    do 5 eexists; (split; [reflexivity | ]); simpl;
    intros x Hx; try contradiction; destruct Hx as [<- | []]; eauto.
Qed.

(** With the certificate there, or HTTPS off, the constructor returns, having
    registered five children, the last one the distribution it returns. *)
Lemma constructor_returns (id : string) (props : ICdnConstructProps) :
  (enableHttps props = true -> acmCertificate props <> None) ->
  exists oai doc pol pab dist,
    build id props [] =
      ([ ChildIdentity oai; ChildPolicyDocument doc; ChildBucketPolicy pol;
         ChildPublicAccessBlock pab; ChildDistribution dist ],
       inr {| construct_id := id; cloudfrontDistribution := dist |}).
Proof.
  intros Hcert.
  destruct (enableHttps props) eqn:Hhttps.
  - destruct (acmCertificate props) as [c|] eqn:Hc.
    + unfold CdnConstruct_constructor; rewrite Hhttps, Hc; simpl.
      repeat eexists.
    + exfalso; apply Hcert; reflexivity.
  - unfold CdnConstruct_constructor; rewrite Hhttps; simpl.
    repeat eexists.
Qed.

(** HTTPS on and the certificate member [undefined] (which the interface
    type forbids): reading its [id] throws, after the identity, the policy
    document, the bucket policy and the access block were registered. *)
Lemma constructor_throws_without_certificate (id : string) (props : ICdnConstructProps) :
  enableHttps props = true ->
  acmCertificate props = None ->
  exists oai doc pol pab message,
    build id props [] =
      ([ ChildIdentity oai; ChildPolicyDocument doc; ChildBucketPolicy pol;
         ChildPublicAccessBlock pab ],
       inl (TypeError message)).
Proof.
  intros Hhttps Hc.
  unfold CdnConstruct_constructor; rewrite Hhttps, Hc; simpl.
  repeat eexists.
Qed.

Lemma conforming_input_returns (id : string) (props : ICdnConstructProps) :
  conforms props = true ->
  exists c, result_of id props = inr c
            /\ distributions (children_of id props) = [cloudfrontDistribution c].
Proof.
  intros Hok. apply conforms_certificate in Hok.
  destruct (constructor_returns id props (fun _ => Hok))
    as (oai & doc & pol & pab & dist & Hrun).
  unfold outcome, emitted; rewrite Hrun; simpl.
  eexists; split; reflexivity.
Qed.

(** The policy document in full: the one statement the builder writes. *)
Lemma trust_policy_statement (id : string) (props : ICdnConstructProps) :
  exists doc,
    policyDocuments (children_of id props) = [doc]
    /\ DataAwsIamPolicyDocumentConfig.statement (config doc) =
       [ {| Statement.effect := "Allow";
            Statement.actions :=
              [ "s3:GetObject"; "s3:GetObjectVersion"; "s3:ListBucket";
                "s3:GetBucketAcl"; "s3:GetBucketLocation" ];
            Statement.resources :=
              [ Token_asString (S3Bucket.arn (websiteS3Bucket props));
                Token_asString (S3Bucket.arn (websiteS3Bucket props)) ++ "/*" ];
            Statement.principals :=
              [ {| Principal.type := "AWS";
                   Principal.identifiers :=
                     [ iamArn {| node_id := "cloudfront_OAI";
                                 config :=
                                   {| CloudfrontOriginAccessIdentityConfig.comment :=
                                        "bifrost_summary" |} |} ] |} ] |} ].
Proof.
  run_constructor props; eexists; split; reflexivity.
Qed.

(** ** TLS and aliases *)

(** C2.  With [enableHttps = false] the constructor returns, the distribution
    it registers has no alias list at all (whatever the domain names of the
    input) and its viewer certificate is the platform default certificate. *)
Theorem https_off_no_aliases_default_certificate
    (id : string) (props : ICdnConstructProps) :
  enableHttps props = false ->
  exists c,
    result_of id props = inr c
    /\ distributions (children_of id props) = [cloudfrontDistribution c]
    /\ CloudfrontDistributionConfig.aliases (config (cloudfrontDistribution c)) = None
    /\ CloudfrontDistributionConfig.viewerCertificate
         (config (cloudfrontDistribution c)) =
       [ {| ViewerCertificate.acmCertificateArn := None;
            ViewerCertificate.sslSupportMethod := None;
            ViewerCertificate.cloudfrontDefaultCertificate := Some true |} ].
Proof.
  intros Hoff.
  unfold outcome, emitted, CdnConstruct_constructor.
  rewrite Hoff; simpl.
  eexists; repeat split.
Qed.

(** C3.  With [enableHttps = true], a non-empty list of domain names and a
    certificate, the constructor returns, the alias list of the distribution
    is the list of domain names as given, in the same order, and the viewer
    certificate names the identifier of that certificate with the support
    method [sni-only]. *)
Theorem https_on_aliases_and_sni_certificate
    (id : string) (props : ICdnConstructProps) (certificate : AcmCertificate.t) :
  enableHttps props = true ->
  domainNames props <> [] ->
  acmCertificate props = Some certificate ->
  exists c,
    result_of id props = inr c
    /\ distributions (children_of id props) = [cloudfrontDistribution c]
    /\ CloudfrontDistributionConfig.aliases (config (cloudfrontDistribution c)) =
       Some (domainNames props)
    /\ CloudfrontDistributionConfig.viewerCertificate
         (config (cloudfrontDistribution c)) =
       [ {| ViewerCertificate.acmCertificateArn :=
              Some (Token_asString (AcmCertificate.id certificate));
            ViewerCertificate.sslSupportMethod := Some "sni-only";
            ViewerCertificate.cloudfrontDefaultCertificate := None |} ].
Proof.
  intros Hon _ Hcert.
  unfold outcome, emitted, CdnConstruct_constructor.
  rewrite Hon, Hcert; simpl.
  eexists; repeat split.
Qed.

(** ** Error routing *)

(** C4.  For every input the constructor accepts, the distribution has one
    custom error response, for origin error 403: page [/index.html] with
    code 200 when [hasBuildCommand] is true, page [/error.html] with code 403
    when it is false. *)
Theorem error_response_follows_build_command
    (id : string) (props : ICdnConstructProps) :
  (enableHttps props = true -> acmCertificate props <> None) ->
  exists c,
    result_of id props = inr c
    /\ (hasBuildCommand props = true ->
        CloudfrontDistributionConfig.customErrorResponse
          (config (cloudfrontDistribution c)) =
        [ {| CustomErrorResponse.errorCode := 403;
             CustomErrorResponse.responseCode := 200;
             CustomErrorResponse.responsePagePath := "/index.html" |} ])
    /\ (hasBuildCommand props = false ->
        CloudfrontDistributionConfig.customErrorResponse
          (config (cloudfrontDistribution c)) =
        [ {| CustomErrorResponse.errorCode := 403;
             CustomErrorResponse.responseCode := 403;
             CustomErrorResponse.responsePagePath := "/error.html" |} ]).
Proof.
  intros Hcert.
  destruct (constructor_returns id props Hcert)
    as (oai & doc & pol & pab & dist & Hrun).
  exists {| construct_id := id; cloudfrontDistribution := dist |}.
  split; [unfold outcome; rewrite Hrun; reflexivity|].
  (* recover the distribution from the run *)
  revert Hrun. unfold CdnConstruct_constructor.
  destruct (enableHttps props); [destruct (acmCertificate props) as [k|] | ];
    simpl; intros Hrun; inversion Hrun; subst; simpl;
    split; intros ->; reflexivity.
Qed.

(** ** Bucket trust policy and lockdown *)

(** C5.  For every input, one access identity and one policy document are
    registered; the document has exactly one statement, an [Allow] of the
    five read actions on the bucket ARN and the bucket ARN followed by [/*],
    whose only principal is the ARN of that access identity. *)
Theorem trust_policy_single_statement
    (id : string) (props : ICdnConstructProps) :
  exists oai doc,
    identities (children_of id props) = [oai]
    /\ policyDocuments (children_of id props) = [doc]
    /\ DataAwsIamPolicyDocumentConfig.statement (config doc) =
       [ {| Statement.effect := "Allow";
            Statement.actions :=
              [ "s3:GetObject"; "s3:GetObjectVersion"; "s3:ListBucket";
                "s3:GetBucketAcl"; "s3:GetBucketLocation" ];
            Statement.resources :=
              [ Token_asString (S3Bucket.arn (websiteS3Bucket props));
                Token_asString (S3Bucket.arn (websiteS3Bucket props)) ++ "/*" ];
            Statement.principals :=
              [ {| Principal.type := "AWS";
                   Principal.identifiers := [ iamArn oai ] |} ] |} ].
Proof.
  run_constructor props; do 2 eexists; repeat split.
Qed.

(** C6.  For every input, exactly one public access block is registered, on
    the bucket of the input, with [blockPublicAcls], [blockPublicPolicy] and
    [ignorePublicAcls] true and [restrictPublicBuckets] false; no member of
    the input reaches the four flags. *)
Theorem public_access_block_fixed
    (id : string) (props : ICdnConstructProps) :
  publicAccessBlocks (children_of id props) =
    [ {| node_id := "cloudfront_s3_bucket_public_access_block";
         config :=
           {| S3BucketPublicAccessBlockConfig.bucket :=
                Token_asString (S3Bucket.id (websiteS3Bucket props));
              S3BucketPublicAccessBlockConfig.blockPublicAcls := true;
              S3BucketPublicAccessBlockConfig.blockPublicPolicy := true;
              S3BucketPublicAccessBlockConfig.ignorePublicAcls := true;
              S3BucketPublicAccessBlockConfig.restrictPublicBuckets := false |} |} ].
Proof.
  destruct (constructor_prefix id props)
    as (oai & doc & pol & pab & rest & Hchildren & Hrest).
  assert (Hnone : publicAccessBlocks rest = []).
  { clear Hchildren. induction rest as [|x rest IH]; [reflexivity|].
    destruct (Hrest x (or_introl eq_refl)) as [d ->]; simpl.
    apply IH. intros y Hy. apply Hrest. right; exact Hy. }
  rewrite Hchildren. unfold publicAccessBlocks in *; simpl. rewrite Hnone.
  f_equal.
  (* the block itself, read off the run *)
  revert Hchildren. run_constructor props; intros H; inversion H; reflexivity.
Qed.

(** ** Cache behaviour *)

(** C7.  For every input the constructor accepts, the distribution has one
    default cache behaviour: all seven methods allowed, GET and HEAD cached,
    viewer protocol policy [redirect-to-https] (also with HTTPS off), no
    query-string forwarding and cookie forwarding [none]. *)
Theorem default_cache_behavior_fixed
    (id : string) (props : ICdnConstructProps) :
  (enableHttps props = true -> acmCertificate props <> None) ->
  exists c b,
    result_of id props = inr c
    /\ CloudfrontDistributionConfig.defaultCacheBehavior
         (config (cloudfrontDistribution c)) = [b]
    /\ DefaultCacheBehavior.allowedMethods b =
       [ "DELETE"; "GET"; "HEAD"; "OPTIONS"; "PATCH"; "POST"; "PUT" ]
    /\ DefaultCacheBehavior.cachedMethods b = [ "GET"; "HEAD" ]
    /\ DefaultCacheBehavior.viewerProtocolPolicy b = "redirect-to-https"
    /\ DefaultCacheBehavior.forwardedValues b =
       [ {| ForwardedValues.queryString := false;
            ForwardedValues.cookies := [ {| Cookies.forward := "none" |} ] |} ]
    /\ DefaultCacheBehavior.targetOriginId b = resourceNamesPrefix props.
Proof.
  intros Hcert.
  case_eq (enableHttps props); intros Hhttps.
  - case_eq (acmCertificate props).
    + intros k Hk.
      unfold outcome, CdnConstruct_constructor; rewrite Hhttps, Hk; simpl.
      do 2 eexists; repeat split.
    + intros Hk. elim (Hcert Hhttps Hk).
  - unfold outcome, CdnConstruct_constructor; rewrite Hhttps; simpl.
    do 2 eexists; repeat split.
Qed.

(** ** What the HTTPS switch touches *)

(** C10.  Two accepted inputs that agree on [hasBuildCommand],
    [resourceNamesPrefix] and [websiteS3Bucket] (and so differ at most in
    [enableHttps], the domain names and the certificate) yield distributions
    that differ at most in the alias list and the viewer-certificate block:
    putting the second's aliases and viewer certificate into the first gives
    the second, so origin, default cache behaviour, custom error response,
    default root object and restrictions coincide. *)
Theorem https_toggle_frame
    (id : string) (p1 p2 : ICdnConstructProps) :
  (enableHttps p1 = true -> acmCertificate p1 <> None) ->
  (enableHttps p2 = true -> acmCertificate p2 <> None) ->
  hasBuildCommand p1 = hasBuildCommand p2 ->
  resourceNamesPrefix p1 = resourceNamesPrefix p2 ->
  websiteS3Bucket p1 = websiteS3Bucket p2 ->
  exists c1 c2,
    result_of id p1 = inr c1
    /\ result_of id p2 = inr c2
    /\ node_id (cloudfrontDistribution c1) = node_id (cloudfrontDistribution c2)
    /\ with_tls
         (CloudfrontDistributionConfig.aliases (config (cloudfrontDistribution c2)))
         (CloudfrontDistributionConfig.viewerCertificate
            (config (cloudfrontDistribution c2)))
         (config (cloudfrontDistribution c1)) =
       config (cloudfrontDistribution c2)
    /\ CloudfrontDistributionConfig.origin (config (cloudfrontDistribution c1)) =
       CloudfrontDistributionConfig.origin (config (cloudfrontDistribution c2))
    /\ CloudfrontDistributionConfig.defaultCacheBehavior
         (config (cloudfrontDistribution c1)) =
       CloudfrontDistributionConfig.defaultCacheBehavior
         (config (cloudfrontDistribution c2))
    /\ CloudfrontDistributionConfig.customErrorResponse
         (config (cloudfrontDistribution c1)) =
       CloudfrontDistributionConfig.customErrorResponse
         (config (cloudfrontDistribution c2))
    /\ CloudfrontDistributionConfig.defaultRootObject
         (config (cloudfrontDistribution c1)) =
       CloudfrontDistributionConfig.defaultRootObject
         (config (cloudfrontDistribution c2))
    /\ CloudfrontDistributionConfig.restrictions
         (config (cloudfrontDistribution c1)) =
       CloudfrontDistributionConfig.restrictions
         (config (cloudfrontDistribution c2)).
Proof.
  intros H1 H2 Hspa Hprefix Hbucket.
  destruct p1 as [cert1 names1 https1 spa1 prefix1 bucket1].
  destruct p2 as [cert2 names2 https2 spa2 prefix2 bucket2].
  simpl in *. subst spa2 prefix2 bucket2.
  assert (G1 : https1 = true -> exists k, cert1 = Some k).
  { intros E. destruct cert1 as [k|]; [eauto | elim (H1 E eq_refl)]. }
  assert (G2 : https2 = true -> exists k, cert2 = Some k).
  { intros E. destruct cert2 as [k|]; [eauto | elim (H2 E eq_refl)]. }
  unfold outcome, CdnConstruct_constructor; simpl.
  destruct https1; [destruct (G1 eq_refl) as [k1 ->] | ];
    (destruct https2; [destruct (G2 eq_refl) as [k2 ->] | ]);
    simpl; do 2 eexists; repeat split.
Qed.

(** ** Validation *)

(** C1, as the code has it.  The constructor validates nothing.  With
    [enableHttps = true] and the certificate the interface requires, it
    returns whatever the list of domain names, the empty list included, and
    registers five resources, in order the identity, the policy document,
    the bucket policy, the access block and the distribution, whose alias
    list is the list of domain names as given. *)
Theorem https_on_is_constructed_unvalidated
    (id : string) (props : ICdnConstructProps) (certificate : AcmCertificate.t) :
  enableHttps props = true ->
  acmCertificate props = Some certificate ->
  exists oai doc pol pab c,
    result_of id props = inr c
    /\ children_of id props =
       [ ChildIdentity oai; ChildPolicyDocument doc; ChildBucketPolicy pol;
         ChildPublicAccessBlock pab; ChildDistribution (cloudfrontDistribution c) ]
    /\ CloudfrontDistributionConfig.aliases (config (cloudfrontDistribution c)) =
       Some (domainNames props).
Proof.
  intros Hon Hcert.
  assert (Hread : enableHttps props = true -> acmCertificate props <> None)
    by (intros _; rewrite Hcert; discriminate).
  destruct (constructor_returns id props Hread)
    as (oai & doc & pol & pab & dist & Hrun).
  exists oai, doc, pol, pab, {| construct_id := id; cloudfrontDistribution := dist |}.
  unfold outcome, emitted. rewrite Hrun. simpl.
  repeat split.
  revert Hrun. unfold CdnConstruct_constructor. rewrite Hon, Hcert. simpl.
  intros Hrun. injection Hrun as _ _ _ _ <- _. reflexivity.
Qed.

(** C8, as the code has it.  The interface declares the certificate as a
    member that is not optional, so an input conforms to it exactly when the
    certificate is there.  The constructor, however, reads the certificate
    only under [enableHttps = true]: with [enableHttps = false] it returns,
    and the run is the same whatever the certificate member holds, nothing
    included. *)
Theorem certificate_unread_when_https_off
    (id : string) (props : ICdnConstructProps) :
  enableHttps props = false ->
  (conforms props = true <-> acmCertificate props <> None)
  /\ (exists c, result_of id props = inr c)
  /\ (forall other : option AcmCertificate.t,
        build id (with_certificate other props) [] = build id props []).
Proof.
  intros Hoff. split; [apply conforms_certificate|]. split.
  - destruct (constructor_returns id props) as (oai & doc & pol & pab & dist & Hrun).
    + rewrite Hoff; discriminate.
    + eexists. unfold outcome. rewrite Hrun. reflexivity.
  - intros other. destruct props as [cert names https spa prefix bucket].
    simpl in Hoff. subst https. reflexivity.
Qed.


End Properties.

(** * The constructor on concrete inputs *)

(** The first scenario of the specification: aliases, certificate with
    [sni-only], and the rewrite of 403 to [/index.html] with code 200. *)
Example scenario_site1 :
  map (fun d => (CloudfrontDistributionConfig.aliases (config d),
                 CloudfrontDistributionConfig.viewerCertificate (config d),
                 CloudfrontDistributionConfig.customErrorResponse (config d)))
      (distributions (fst (run "cdn" site1))) =
  [ (Some ["example.com"],
     [ {| ViewerCertificate.acmCertificateArn := Some "cert-123";
          ViewerCertificate.sslSupportMethod := Some "sni-only";
          ViewerCertificate.cloudfrontDefaultCertificate := None |} ],
     [ {| CustomErrorResponse.errorCode := 403;
          CustomErrorResponse.responseCode := 200;
          CustomErrorResponse.responsePagePath := "/index.html" |} ]) ].
Proof. reflexivity. Qed.

(** The second scenario: no aliases, default certificate, 403 kept with
    [/error.html]. *)
Example scenario_site2 :
  map (fun d => (CloudfrontDistributionConfig.aliases (config d),
                 CloudfrontDistributionConfig.viewerCertificate (config d),
                 CloudfrontDistributionConfig.customErrorResponse (config d)))
      (distributions (fst (run "cdn" site2))) =
  [ (None,
     [ {| ViewerCertificate.acmCertificateArn := None;
          ViewerCertificate.sslSupportMethod := None;
          ViewerCertificate.cloudfrontDefaultCertificate := Some true |} ],
     [ {| CustomErrorResponse.errorCode := 403;
          CustomErrorResponse.responseCode := 403;
          CustomErrorResponse.responsePagePath := "/error.html" |} ]) ].
Proof. reflexivity. Qed.

(** HTTPS off with a domain name in the input: the name is not passed on. *)
Example https_off_drops_domain_names :
  domainNames site1_http = ["example.com"]
  /\ map (fun d => CloudfrontDistributionConfig.aliases (config d))
         (distributions (fst (run "cdn" site1_http))) = [None].
Proof. split; reflexivity. Qed.

(** The bucket policy attaches the document of the same run to the bucket. *)
Example bucket_policy_site1 :
  map (fun r => config r) (bucketPolicies (fst (run "cdn" site1))) =
  map (fun doc => {| S3BucketPolicyConfig.bucket := "bucket-abc";
                     S3BucketPolicyConfig.policy := render_json doc |})
      (policyDocuments (fst (run "cdn" site1))).
Proof. reflexivity. Qed.

(** HTTPS on with the certificate member [undefined]: the exception comes
    after four resources were registered. *)
Example https_without_certificate_throws_late :
  run "cdn" (with_certificate None site1) =
  (firstn 4 (fst (run "cdn" site1)),
   inl (TypeError "Cannot read property 'id' of undefined")).
Proof. reflexivity. Qed.

(** ** Instances of the theorems *)

Lemma site2_no_aliases_default_certificate :
  enableHttps site2 = false
  /\ exists c,
       snd (run "cdn" site2) = inr c
       /\ distributions (fst (run "cdn" site2)) = [cloudfrontDistribution c]
       /\ CloudfrontDistributionConfig.aliases (config (cloudfrontDistribution c)) = None
       /\ CloudfrontDistributionConfig.viewerCertificate
            (config (cloudfrontDistribution c)) =
          [ {| ViewerCertificate.acmCertificateArn := None;
               ViewerCertificate.sslSupportMethod := None;
               ViewerCertificate.cloudfrontDefaultCertificate := Some true |} ].
Proof.
  split; [reflexivity|].
  exact (https_off_no_aliases_default_certificate
           render render_iamArn render_accessIdentityPath render_json
           "cdn" site2 eq_refl).
Defined.

Lemma site1_aliases_and_sni_certificate :
  (enableHttps site1 = true /\ domainNames site1 <> []
   /\ acmCertificate site1 = Some cert_123)
  /\ exists c,
       snd (run "cdn" site1) = inr c
       /\ distributions (fst (run "cdn" site1)) = [cloudfrontDistribution c]
       /\ CloudfrontDistributionConfig.aliases (config (cloudfrontDistribution c)) =
          Some ["example.com"]
       /\ CloudfrontDistributionConfig.viewerCertificate
            (config (cloudfrontDistribution c)) =
          [ {| ViewerCertificate.acmCertificateArn := Some "cert-123";
               ViewerCertificate.sslSupportMethod := Some "sni-only";
               ViewerCertificate.cloudfrontDefaultCertificate := None |} ].
Proof.
  assert (Hnames : domainNames site1 <> []) by (simpl; discriminate).
  split; [repeat split; exact Hnames|].
  exact (https_on_aliases_and_sni_certificate
           render render_iamArn render_accessIdentityPath render_json
           "cdn" site1 cert_123 eq_refl Hnames eq_refl).
Defined.

Lemma site1_error_response :
  (enableHttps site1 = true -> acmCertificate site1 <> None)
  /\ exists c,
       snd (run "cdn" site1) = inr c
       /\ (hasBuildCommand site1 = true ->
           CloudfrontDistributionConfig.customErrorResponse
             (config (cloudfrontDistribution c)) =
           [ {| CustomErrorResponse.errorCode := 403;
                CustomErrorResponse.responseCode := 200;
                CustomErrorResponse.responsePagePath := "/index.html" |} ])
       /\ (hasBuildCommand site1 = false ->
           CloudfrontDistributionConfig.customErrorResponse
             (config (cloudfrontDistribution c)) =
           [ {| CustomErrorResponse.errorCode := 403;
                CustomErrorResponse.responseCode := 403;
                CustomErrorResponse.responsePagePath := "/error.html" |} ]).
Proof.
  assert (Hcert : enableHttps site1 = true -> acmCertificate site1 <> None)
    by (intros _; simpl; discriminate).
  split; [exact Hcert|].
  exact (error_response_follows_build_command
           render render_iamArn render_accessIdentityPath render_json
           "cdn" site1 Hcert).
Defined.

Lemma site2_default_cache_behavior :
  (enableHttps site2 = true -> acmCertificate site2 <> None)
  /\ exists c b,
       snd (run "cdn" site2) = inr c
       /\ CloudfrontDistributionConfig.defaultCacheBehavior
            (config (cloudfrontDistribution c)) = [b]
       /\ DefaultCacheBehavior.allowedMethods b =
          [ "DELETE"; "GET"; "HEAD"; "OPTIONS"; "PATCH"; "POST"; "PUT" ]
       /\ DefaultCacheBehavior.cachedMethods b = [ "GET"; "HEAD" ]
       /\ DefaultCacheBehavior.viewerProtocolPolicy b = "redirect-to-https"
       /\ DefaultCacheBehavior.forwardedValues b =
          [ {| ForwardedValues.queryString := false;
               ForwardedValues.cookies := [ {| Cookies.forward := "none" |} ] |} ]
       /\ DefaultCacheBehavior.targetOriginId b = "site2".
Proof.
  assert (Hcert : enableHttps site2 = true -> acmCertificate site2 <> None)
    by (simpl; discriminate).
  split; [exact Hcert|].
  exact (default_cache_behavior_fixed
           render render_iamArn render_accessIdentityPath render_json
           "cdn" site2 Hcert).
Defined.

Lemma site1_https_toggle :
  (enableHttps site1 = true /\ enableHttps site1_http = false)
  /\ exists c1 c2,
       snd (run "cdn" site1) = inr c1
       /\ snd (run "cdn" site1_http) = inr c2
       /\ node_id (cloudfrontDistribution c1) = node_id (cloudfrontDistribution c2)
       /\ with_tls
            (CloudfrontDistributionConfig.aliases (config (cloudfrontDistribution c2)))
            (CloudfrontDistributionConfig.viewerCertificate
               (config (cloudfrontDistribution c2)))
            (config (cloudfrontDistribution c1)) =
          config (cloudfrontDistribution c2)
       /\ CloudfrontDistributionConfig.origin (config (cloudfrontDistribution c1)) =
          CloudfrontDistributionConfig.origin (config (cloudfrontDistribution c2))
       /\ CloudfrontDistributionConfig.defaultCacheBehavior
            (config (cloudfrontDistribution c1)) =
          CloudfrontDistributionConfig.defaultCacheBehavior
            (config (cloudfrontDistribution c2))
       /\ CloudfrontDistributionConfig.customErrorResponse
            (config (cloudfrontDistribution c1)) =
          CloudfrontDistributionConfig.customErrorResponse
            (config (cloudfrontDistribution c2))
       /\ CloudfrontDistributionConfig.defaultRootObject
            (config (cloudfrontDistribution c1)) =
          CloudfrontDistributionConfig.defaultRootObject
            (config (cloudfrontDistribution c2))
       /\ CloudfrontDistributionConfig.restrictions
            (config (cloudfrontDistribution c1)) =
          CloudfrontDistributionConfig.restrictions
            (config (cloudfrontDistribution c2)).
Proof.
  split; [split; reflexivity|].
  refine (https_toggle_frame
            render render_iamArn render_accessIdentityPath render_json
            "cdn" site1 site1_http _ _ eq_refl eq_refl eq_refl);
    simpl; discriminate.
Defined.

Lemma site3_is_constructed_unvalidated :
  (enableHttps site3 = true /\ acmCertificate site3 = Some cert_123
   /\ domainNames site3 = [])
  /\ exists oai doc pol pab c,
       snd (run "cdn" site3) = inr c
       /\ fst (run "cdn" site3) =
          [ ChildIdentity oai; ChildPolicyDocument doc; ChildBucketPolicy pol;
            ChildPublicAccessBlock pab; ChildDistribution (cloudfrontDistribution c) ]
       /\ CloudfrontDistributionConfig.aliases (config (cloudfrontDistribution c)) =
          Some [].
Proof.
  split; [repeat split|].
  exact (https_on_is_constructed_unvalidated
           render render_iamArn render_accessIdentityPath render_json
           "cdn" site3 cert_123 eq_refl eq_refl).
Defined.

Lemma site2_certificate_unread :
  enableHttps site2 = false
  /\ (conforms site2 = true <-> acmCertificate site2 <> None)
  /\ (exists c, snd (run "cdn" site2) = inr c)
  /\ (forall other : option AcmCertificate.t,
        run "cdn" (with_certificate other site2) = run "cdn" site2).
Proof.
  split; [reflexivity|].
  exact (certificate_unread_when_https_off
           render render_iamArn render_accessIdentityPath render_json
           "cdn" site2 eq_refl).
Defined.


(** ** Where the constructor does not do what was expected of it *)

(** HTTPS on and no domain name: nothing is rejected, the five resources are
    registered and the constructor returns. *)
Lemma https_without_domains_not_rejected :
  enableHttps site3 = true
  /\ domainNames site3 = []
  /\ ~ rejected_before_emitting "cdn" site3
  /\ (exists c, snd (run "cdn" site3) = inr c)
  /\ length (fst (run "cdn" site3)) = 5.
Proof.
  split; [reflexivity|]. split; [reflexivity|]. split.
  - intros [e He]. vm_compute in He. discriminate He.
  - split; [eexists|]; reflexivity.
Qed.

(** HTTPS off and no certificate: the input is not a value of the interface,
    whose certificate member is not optional. *)
Lemma certificate_member_not_optional :
  enableHttps site2 = false
  /\ acmCertificate site2 = None
  /\ conforms site2 = false
  /\ In ("acmCertificate", false) ICdnConstructProps_members
  /\ ~ In ("acmCertificate", true) ICdnConstructProps_members.
Proof.
  repeat split.
  - left; reflexivity.
  - simpl. intros H.
    repeat (destruct H as [H | H]; [discriminate H|]). exact H.
Qed.


(** * Further properties of the constructor *)

Lemma append_length (s t : string) :
  String.length (s ++ t) = String.length s + String.length t.
Proof.
  induction s as [|a s IH]; simpl; [reflexivity|].
  rewrite IH. reflexivity.
Qed.

Lemma append_nonempty_differs (s t : string) :
  t <> "" -> s <> s ++ t.
Proof.
  intros Ht E.
  assert (Hlen : String.length s = String.length s + String.length t)
    by (rewrite <- append_length, <- E; reflexivity).
  destruct t as [|a t]; [apply Ht; reflexivity|].
  simpl in Hlen. lia.
Qed.

Lemma prefix_append (s t : string) : String.prefix s (s ++ t) = true.
Proof.
  induction s as [|a s IH]; simpl; [destruct t; reflexivity|].
  destruct (Ascii.ascii_dec a a) as [_ | Hne]; [exact IH | elim Hne; reflexivity].
Qed.

Lemma prefix_self (s : string) : String.prefix s s = true.
Proof.
  induction s as [|a s IH]; simpl; [reflexivity|].
  destruct (Ascii.ascii_dec a a) as [_ | Hne]; [exact IH | elim Hne; reflexivity].
Qed.

Section FurtherProperties.

Variable Token_asString : Attribute -> string.
Variable iamArn : CloudfrontOriginAccessIdentity -> string.
Variable cloudfrontAccessIdentityPath : CloudfrontOriginAccessIdentity -> string.
Variable json : DataAwsIamPolicyDocument -> string.

Local Abbreviation build :=
  (CdnConstruct_constructor Token_asString iamArn cloudfrontAccessIdentityPath json).
Local Abbreviation children_of :=
  (emitted Token_asString iamArn cloudfrontAccessIdentityPath json).
Local Abbreviation result_of :=
  (outcome Token_asString iamArn cloudfrontAccessIdentityPath json).

(** Runs the constructor on an input taken apart into its members. *)
Ltac by_cases props :=
  unfold emitted, outcome, CdnConstruct_constructor;
  destruct props as [cert names https spa prefix bucket];
  simpl in *; subst;
  try destruct cert; try destruct https; try destruct spa;
  try discriminate; try congruence; simpl.

(** ** When the constructor throws *)

(** X2.  When it throws, the exception is the type error of reading [id] on
    [undefined], no distribution was registered, but the identity, the
    policy document, the bucket policy and the access block already were. *)
Theorem throw_leaves_partial_graph (id : string) (props : ICdnConstructProps) :
  enableHttps props = true ->
  acmCertificate props = None ->
  result_of id props = inl (TypeError "Cannot read property 'id' of undefined")
  /\ distributions (children_of id props) = []
  /\ map child_id (children_of id props) =
     [ "cloudfront_OAI"; "cloudfront_OAI_role_policy_document";
       "cloudfront_s3_bucket_policy"; "cloudfront_s3_bucket_public_access_block" ]
  /\ bucketSide (children_of id props) = children_of id props.
Proof.
  intros Hhttps Hk.
  unfold outcome, emitted, CdnConstruct_constructor.
  rewrite Hhttps, Hk. simpl. repeat split.
Qed.

(** X3.  On an input that conforms to the interface the body of the
    constructor does not throw: called with an id that is not empty, it
    returns, having registered five children under five fixed ids, the last
    of which is the distribution it returns and the only one. *)
Theorem conforming_input_yields_full_graph (id : string) (props : ICdnConstructProps) :
  id <> "" ->
  conforms props = true ->
  exists c,
    result_of id props = inr c
    /\ map child_id (children_of id props) =
       [ "cloudfront_OAI"; "cloudfront_OAI_role_policy_document";
         "cloudfront_s3_bucket_policy"; "cloudfront_s3_bucket_public_access_block";
         "cloudfront_distribution" ]
    /\ last (children_of id props) (ChildDistribution (cloudfrontDistribution c)) =
       ChildDistribution (cloudfrontDistribution c)
    /\ distributions (children_of id props) = [cloudfrontDistribution c].
Proof.
  intros _ Hok. apply conforms_certificate in Hok.
  destruct (acmCertificate props) as [k|] eqn:Hk; [clear Hok | elim Hok; reflexivity].
  unfold outcome, emitted, CdnConstruct_constructor. rewrite Hk.
  destruct (enableHttps props); simpl; eexists; repeat split.
Qed.

(** X4.  The ids of the children are pairwise distinct for every input, so
    no registration collides with an earlier one. *)
Theorem child_ids_distinct (id : string) (props : ICdnConstructProps) :
  NoDup (map child_id (children_of id props)).
Proof.
  assert (Hfive : NoDup [ "cloudfront_OAI"; "cloudfront_OAI_role_policy_document";
                          "cloudfront_s3_bucket_policy";
                          "cloudfront_s3_bucket_public_access_block";
                          "cloudfront_distribution" ]).
  { repeat constructor; simpl; intuition discriminate. }
  destruct (enableHttps props) eqn:Hhttps;
    [destruct (acmCertificate props) as [k|] eqn:Hk|];
    unfold emitted, CdnConstruct_constructor; rewrite ?Hhttps, ?Hk; simpl;
    try exact Hfive.
  (* the run that throws: the first four of the five *)
  repeat constructor; simpl; intuition discriminate.
Qed.

(** ** What each member of the input reaches *)

(** X5.  Within a construct of a given id, the identity, the policy
    document, the bucket policy and the access block are determined by the
    bucket alone: two inputs with the same bucket, built under the same id,
    give the same four, whatever their flags, names, prefix and certificate,
    and whether or not the constructor goes on to throw. *)
Theorem bucket_side_depends_only_on_bucket
    (id : string) (p1 p2 : ICdnConstructProps) :
  id <> "" ->
  websiteS3Bucket p1 = websiteS3Bucket p2 ->
  bucketSide (children_of id p1) = bucketSide (children_of id p2)
  /\ length (bucketSide (children_of id p1)) = 4.
Proof.
  intros _ Hbucket.
  destruct p1 as [cert1 names1 https1 spa1 prefix1 bucket1].
  destruct p2 as [cert2 names2 https2 spa2 prefix2 bucket2].
  simpl in Hbucket. subst bucket2.
  unfold emitted, CdnConstruct_constructor; simpl.
  destruct https1, https2, cert1, cert2; simpl; split; reflexivity.
Qed.

(** X6.  Changing [hasBuildCommand] changes nothing but the custom error
    response of the distribution: every other member of the distribution and
    every other resource stay as they were. *)
Theorem build_command_toggle_frame
    (id : string) (props : ICdnConstructProps) (b : bool) :
  (enableHttps props = true -> acmCertificate props <> None) ->
  exists c c',
    result_of id props = inr c
    /\ result_of id (with_hasBuildCommand b props) = inr c'
    /\ node_id (cloudfrontDistribution c') = node_id (cloudfrontDistribution c)
    /\ with_customErrorResponse
         (CloudfrontDistributionConfig.customErrorResponse
            (config (cloudfrontDistribution c')))
         (config (cloudfrontDistribution c)) =
       config (cloudfrontDistribution c')
    /\ bucketSide (children_of id (with_hasBuildCommand b props)) =
       bucketSide (children_of id props).
Proof.
  intros Hcert.
  destruct props as [cert names https spa prefix bucket]. simpl in Hcert.
  unfold outcome, emitted, with_hasBuildCommand, CdnConstruct_constructor; simpl.
  destruct https.
  - destruct cert as [k|]; [|elim (Hcert eq_refl); reflexivity].
    simpl. do 2 eexists. repeat split.
  - simpl. do 2 eexists. repeat split.
Qed.

(** X7.  With HTTPS off the list of domain names is not read: the run is the
    same for every list. *)
Theorem domain_names_unread_when_https_off
    (id : string) (props : ICdnConstructProps) (names : list string) :
  enableHttps props = false ->
  build id (with_domainNames names props) [] = build id props [].
Proof.
  intros Hoff.
  destruct props as [cert names0 https spa prefix bucket].
  simpl in Hoff. rewrite Hoff.
  reflexivity.
Qed.

(** ** The wiring between the resources *)

(** X8.  The distribution has one origin: the bucket's regional domain name
    under the origin id [resourceNamesPrefix]; the default cache behaviour
    targets that same origin id, and the distribution depends on the bucket
    of the input and on nothing else. *)
Theorem origin_binding (id : string) (props : ICdnConstructProps) :
  (enableHttps props = true -> acmCertificate props <> None) ->
  exists c o b,
    result_of id props = inr c
    /\ CloudfrontDistributionConfig.origin (config (cloudfrontDistribution c)) = [o]
    /\ Origin.domainName o = S3Bucket.bucketRegionalDomainName (websiteS3Bucket props)
    /\ Origin.originId o = resourceNamesPrefix props
    /\ CloudfrontDistributionConfig.defaultCacheBehavior
         (config (cloudfrontDistribution c)) = [b]
    /\ DefaultCacheBehavior.targetOriginId b = Origin.originId o
    /\ CloudfrontDistributionConfig.dependsOn (config (cloudfrontDistribution c)) =
       [websiteS3Bucket props].
Proof.
  intros Hcert.
  destruct (enableHttps props) eqn:Hhttps.
  - destruct (acmCertificate props) as [k|] eqn:Hk.
    + unfold outcome, CdnConstruct_constructor. rewrite Hhttps, Hk. simpl.
      do 3 eexists. repeat split.
    + elim (Hcert eq_refl). reflexivity.
  - unfold outcome, CdnConstruct_constructor. rewrite Hhttps. simpl.
    do 3 eexists. repeat split.
Qed.

(** X9.  One access identity is registered, and it is the same one on both
    sides: the origin of the distribution presents its access path, and the
    identifiers of all principals of the policy document are its ARN alone. *)
Theorem one_identity_trusted_and_presented (id : string) (props : ICdnConstructProps) :
  (enableHttps props = true -> acmCertificate props <> None) ->
  exists c oai,
    result_of id props = inr c
    /\ identities (children_of id props) = [oai]
    /\ flat_map Origin.s3OriginConfig
         (CloudfrontDistributionConfig.origin (config (cloudfrontDistribution c))) =
       [ {| S3OriginConfig.originAccessIdentity := cloudfrontAccessIdentityPath oai |} ]
    /\ flat_map Principal.identifiers
         (flat_map Statement.principals
            (flat_map (fun doc => DataAwsIamPolicyDocumentConfig.statement (config doc))
               (policyDocuments (children_of id props)))) =
       [ iamArn oai ].
Proof.
  intros Hcert.
  destruct props as [cert names https spa prefix bucket]. simpl in Hcert.
  unfold outcome, emitted, CdnConstruct_constructor; simpl.
  destruct https; [destruct cert as [k|]; [|elim (Hcert eq_refl); reflexivity]|];
    simpl; do 2 eexists; repeat split.
Qed.

(** X10.  For every input one bucket policy is registered; it attaches the
    JSON of the policy document of the same run, and it names the same
    bucket as the access block, the identifier of the input's bucket. *)
Theorem bucket_policy_attaches_document (id : string) (props : ICdnConstructProps) :
  exists doc pol pab,
    policyDocuments (children_of id props) = [doc]
    /\ bucketPolicies (children_of id props) = [pol]
    /\ publicAccessBlocks (children_of id props) = [pab]
    /\ S3BucketPolicyConfig.policy (config pol) = json doc
    /\ S3BucketPolicyConfig.bucket (config pol) =
       Token_asString (S3Bucket.id (websiteS3Bucket props))
    /\ S3BucketPublicAccessBlockConfig.bucket (config pab) =
       S3BucketPolicyConfig.bucket (config pol).
Proof.
  by_cases props; do 3 eexists; repeat split.
Qed.

(** X11.  The resources of the policy statement are two different strings,
    each starting with the string of the bucket ARN, whatever that string
    is: the grant names the bucket and its objects and nothing outside. *)
Theorem policy_resources_distinct_under_bucket (id : string) (props : ICdnConstructProps) :
  exists doc,
    policyDocuments (children_of id props) = [doc]
    /\ Forall
         (fun st =>
            NoDup (Statement.resources st)
            /\ Forall
                 (fun r =>
                    String.prefix
                      (Token_asString (S3Bucket.arn (websiteS3Bucket props))) r = true)
                 (Statement.resources st))
         (DataAwsIamPolicyDocumentConfig.statement (config doc)).
Proof.
  destruct (trust_policy_statement
              Token_asString iamArn cloudfrontAccessIdentityPath json id props)
    as (doc & Hdocs & Hstatement).
  exists doc. split; [exact Hdocs|].
  rewrite Hstatement.
  set (a := Token_asString (S3Bucket.arn (websiteS3Bucket props))).
  constructor; [|constructor]. simpl. split.
  - constructor.
    + intros [E | []]. symmetry in E. revert E.
      apply append_nonempty_differs. discriminate.
    + constructor; [intros [] | constructor].
  - constructor; [apply prefix_self|].
    constructor; [apply prefix_append | constructor].
Qed.

(** ** The shape of the distribution *)

(** X12.  Aliases and certificate go together: the distribution has an alias
    list exactly when HTTPS is on, exactly then its viewer certificate names
    a certificate with a support method, and otherwise it is the default
    certificate; it is never both and never neither. *)
Theorem aliases_follow_certificate (id : string) (props : ICdnConstructProps) :
  (enableHttps props = true -> acmCertificate props <> None) ->
  exists c v,
    result_of id props = inr c
    /\ CloudfrontDistributionConfig.viewerCertificate
         (config (cloudfrontDistribution c)) = [v]
    /\ (CloudfrontDistributionConfig.aliases (config (cloudfrontDistribution c)) <> None
        <-> enableHttps props = true)
    /\ (ViewerCertificate.acmCertificateArn v <> None <-> enableHttps props = true)
    /\ (ViewerCertificate.sslSupportMethod v <> None <-> enableHttps props = true)
    /\ (ViewerCertificate.cloudfrontDefaultCertificate v = Some true
        <-> enableHttps props = false)
    /\ (ViewerCertificate.cloudfrontDefaultCertificate v = None
        <-> enableHttps props = true).
Proof.
  intros Hcert.
  case_eq (enableHttps props); intros Hhttps.
  - case_eq (acmCertificate props); [intros k Hk | intros Hk; elim (Hcert Hhttps Hk)].
    unfold outcome, CdnConstruct_constructor. rewrite Hhttps, Hk. simpl.
    do 2 eexists. repeat split; intros; simpl in *; congruence.
  - unfold outcome, CdnConstruct_constructor. rewrite Hhttps. simpl.
    do 2 eexists. repeat split; intros; simpl in *; congruence.
Qed.

(** X13.  Every distribution the constructor returns is enabled, serves
    [index.html] as its default root object and restricts no geography. *)
Theorem distribution_fixed_members (id : string) (props : ICdnConstructProps) :
  (enableHttps props = true -> acmCertificate props <> None) ->
  exists c,
    result_of id props = inr c
    /\ CloudfrontDistributionConfig.enabled (config (cloudfrontDistribution c)) = true
    /\ CloudfrontDistributionConfig.defaultRootObject
         (config (cloudfrontDistribution c)) = "index.html"
    /\ CloudfrontDistributionConfig.restrictions (config (cloudfrontDistribution c)) =
       [ {| Restrictions.geoRestriction :=
              [ {| GeoRestriction.restrictionType := "none" |} ] |} ].
Proof.
  intros Hcert.
  destruct (constructor_returns
              Token_asString iamArn cloudfrontAccessIdentityPath json id props Hcert)
    as (oai & doc & pol & pab & dist & Hrun).
  exists {| construct_id := id; cloudfrontDistribution := dist |}.
  split; [unfold outcome; rewrite Hrun; reflexivity|].
  revert Hrun. unfold CdnConstruct_constructor.
  destruct (enableHttps props); [destruct (acmCertificate props)|];
    simpl; intros Hrun; inversion Hrun; subst; simpl; repeat split.
Qed.

End FurtherProperties.

(** ** Instances of the further properties *)

Lemma site4_throw_leaves_partial_graph :
  (enableHttps site4 = true /\ acmCertificate site4 = None)
  /\ snd (run "cdn" site4) = inl (TypeError "Cannot read property 'id' of undefined")
  /\ distributions (fst (run "cdn" site4)) = []
  /\ map child_id (fst (run "cdn" site4)) =
     [ "cloudfront_OAI"; "cloudfront_OAI_role_policy_document";
       "cloudfront_s3_bucket_policy"; "cloudfront_s3_bucket_public_access_block" ]
  /\ bucketSide (fst (run "cdn" site4)) = fst (run "cdn" site4).
Proof.
  split; [split; reflexivity|].
  exact (throw_leaves_partial_graph
           render render_iamArn render_accessIdentityPath render_json
           "cdn" site4 eq_refl eq_refl).
Defined.

Lemma site1_yields_full_graph :
  ("cdn" <> "" /\ conforms site1 = true)
  /\ exists c,
       snd (run "cdn" site1) = inr c
       /\ map child_id (fst (run "cdn" site1)) =
          [ "cloudfront_OAI"; "cloudfront_OAI_role_policy_document";
            "cloudfront_s3_bucket_policy"; "cloudfront_s3_bucket_public_access_block";
            "cloudfront_distribution" ]
       /\ last (fst (run "cdn" site1)) (ChildDistribution (cloudfrontDistribution c)) =
          ChildDistribution (cloudfrontDistribution c)
       /\ distributions (fst (run "cdn" site1)) = [cloudfrontDistribution c].
Proof.
  assert (Hid : "cdn" <> "") by discriminate.
  split; [split; [exact Hid | reflexivity]|].
  exact (conforming_input_yields_full_graph
           render render_iamArn render_accessIdentityPath render_json
           "cdn" site1 Hid eq_refl).
Defined.

Lemma site1_site3_share_bucket_side :
  ("cdn" <> "" /\ websiteS3Bucket site1 = websiteS3Bucket site3
   /\ hasBuildCommand site1 <> hasBuildCommand site3
   /\ domainNames site1 <> domainNames site3
   /\ resourceNamesPrefix site1 <> resourceNamesPrefix site3)
  /\ bucketSide (fst (run "cdn" site1)) = bucketSide (fst (run "cdn" site3))
  /\ length (bucketSide (fst (run "cdn" site1))) = 4.
Proof.
  assert (Hid : "cdn" <> "") by discriminate.
  split; [repeat split; solve [exact Hid | simpl; discriminate]|].
  exact (bucket_side_depends_only_on_bucket
           render render_iamArn render_accessIdentityPath render_json
           "cdn" site1 site3 Hid eq_refl).
Defined.

Lemma site1_build_command_toggle :
  (enableHttps site1 = true -> acmCertificate site1 <> None)
  /\ hasBuildCommand site1 = true
  /\ exists c c',
       snd (run "cdn" site1) = inr c
       /\ snd (run "cdn" (with_hasBuildCommand false site1)) = inr c'
       /\ node_id (cloudfrontDistribution c') = node_id (cloudfrontDistribution c)
       /\ with_customErrorResponse
            (CloudfrontDistributionConfig.customErrorResponse
               (config (cloudfrontDistribution c')))
            (config (cloudfrontDistribution c)) =
          config (cloudfrontDistribution c')
       /\ bucketSide (fst (run "cdn" (with_hasBuildCommand false site1))) =
          bucketSide (fst (run "cdn" site1)).
Proof.
  assert (Hcert : enableHttps site1 = true -> acmCertificate site1 <> None)
    by (intros _; simpl; discriminate).
  split; [exact Hcert|]. split; [reflexivity|].
  exact (build_command_toggle_frame
           render render_iamArn render_accessIdentityPath render_json
           "cdn" site1 false Hcert).
Defined.

Lemma site1_http_domain_names_unread :
  enableHttps site1_http = false
  /\ domainNames site1_http = ["example.com"]
  /\ run "cdn" (with_domainNames ["www.example.org"; "example.org"] site1_http) =
     run "cdn" site1_http.
Proof.
  split; [reflexivity|]. split; [reflexivity|].
  exact (domain_names_unread_when_https_off
           render render_iamArn render_accessIdentityPath render_json
           "cdn" site1_http ["www.example.org"; "example.org"] eq_refl).
Defined.

Lemma site1_origin_binding :
  (enableHttps site1 = true -> acmCertificate site1 <> None)
  /\ exists c o b,
       snd (run "cdn" site1) = inr c
       /\ CloudfrontDistributionConfig.origin (config (cloudfrontDistribution c)) = [o]
       /\ Origin.domainName o = "bucket-abc.s3.eu-west-1.amazonaws.com"
       /\ Origin.originId o = "site1"
       /\ CloudfrontDistributionConfig.defaultCacheBehavior
            (config (cloudfrontDistribution c)) = [b]
       /\ DefaultCacheBehavior.targetOriginId b = Origin.originId o
       /\ CloudfrontDistributionConfig.dependsOn (config (cloudfrontDistribution c)) =
          [bucket_abc].
Proof.
  assert (Hcert : enableHttps site1 = true -> acmCertificate site1 <> None)
    by (intros _; simpl; discriminate).
  split; [exact Hcert|].
  exact (origin_binding
           render render_iamArn render_accessIdentityPath render_json
           "cdn" site1 Hcert).
Defined.

Lemma site2_one_identity :
  (enableHttps site2 = true -> acmCertificate site2 <> None)
  /\ exists c oai,
       snd (run "cdn" site2) = inr c
       /\ identities (fst (run "cdn" site2)) = [oai]
       /\ flat_map Origin.s3OriginConfig
            (CloudfrontDistributionConfig.origin (config (cloudfrontDistribution c))) =
          [ {| S3OriginConfig.originAccessIdentity := render_accessIdentityPath oai |} ]
       /\ flat_map Principal.identifiers
            (flat_map Statement.principals
               (flat_map
                  (fun doc => DataAwsIamPolicyDocumentConfig.statement (config doc))
                  (policyDocuments (fst (run "cdn" site2))))) =
          [ render_iamArn oai ].
Proof.
  assert (Hcert : enableHttps site2 = true -> acmCertificate site2 <> None)
    by (simpl; discriminate).
  split; [exact Hcert|].
  exact (one_identity_trusted_and_presented
           render render_iamArn render_accessIdentityPath render_json
           "cdn" site2 Hcert).
Defined.

Lemma site3_aliases_follow_certificate :
  (enableHttps site3 = true -> acmCertificate site3 <> None)
  /\ exists c v,
       snd (run "cdn" site3) = inr c
       /\ CloudfrontDistributionConfig.viewerCertificate
            (config (cloudfrontDistribution c)) = [v]
       /\ (CloudfrontDistributionConfig.aliases (config (cloudfrontDistribution c))
             <> None
           <-> enableHttps site3 = true)
       /\ (ViewerCertificate.acmCertificateArn v <> None <-> enableHttps site3 = true)
       /\ (ViewerCertificate.sslSupportMethod v <> None <-> enableHttps site3 = true)
       /\ (ViewerCertificate.cloudfrontDefaultCertificate v = Some true
           <-> enableHttps site3 = false)
       /\ (ViewerCertificate.cloudfrontDefaultCertificate v = None
           <-> enableHttps site3 = true).
Proof.
  assert (Hcert : enableHttps site3 = true -> acmCertificate site3 <> None)
    by (intros _; simpl; discriminate).
  split; [exact Hcert|].
  exact (aliases_follow_certificate
           render render_iamArn render_accessIdentityPath render_json
           "cdn" site3 Hcert).
Defined.

Lemma site2_distribution_fixed_members :
  (enableHttps site2 = true -> acmCertificate site2 <> None)
  /\ exists c,
       snd (run "cdn" site2) = inr c
       /\ CloudfrontDistributionConfig.enabled (config (cloudfrontDistribution c)) = true
       /\ CloudfrontDistributionConfig.defaultRootObject
            (config (cloudfrontDistribution c)) = "index.html"
       /\ CloudfrontDistributionConfig.restrictions (config (cloudfrontDistribution c)) =
          [ {| Restrictions.geoRestriction :=
                 [ {| GeoRestriction.restrictionType := "none" |} ] |} ].
Proof.
  assert (Hcert : enableHttps site2 = true -> acmCertificate site2 <> None)
    by (simpl; discriminate).
  split; [exact Hcert|].
  exact (distribution_fixed_members
           render render_iamArn render_accessIdentityPath render_json
           "cdn" site2 Hcert).
Defined.
